(** * orch_api: the Orchestrator REST client of [src/orch_api.py]

    A shallow embedding of the class [OrchApi]: Python values, the
    insertion-ordered dictionaries request bodies are built from, the
    [requests] calls as a state-and-exception monad over a log of the
    requests that were sent, and the seven methods of the class. *)

From Stdlib Require Import List String Ascii ZArith Bool Lia DecimalString.
Import ListNotations.
Open Scope string_scope.
Open Scope Z_scope.

Local Set Warnings "-register-all".

(** ** Python values *)

(** The JSON-compatible values the client handles.  A dictionary is the list
    of its items in insertion order (keys are strings, as JSON and keyword
    arguments require).  Strings hold ASCII text; floats are left out. *)
Inductive pyval : Type :=
| PNone
| PBool (b : bool)
| PInt (n : Z)
| PStr (s : string)
| PList (l : list pyval)
| PDict (d : list (string * pyval)).

Definition dict : Type := list (string * pyval).

Module Py.

(** [str(n)] for an [int]. *)
Definition str_of_int (n : Z) : string := NilZero.string_of_int (Z.to_int n).

Definition squote : ascii := "039"%char.
Definition dquote : ascii := "034"%char.
Definition backslash : ascii := "092"%char.

Fixpoint contains_char (c : ascii) (s : string) : bool :=
  match s with
  | EmptyString => false
  | String a s' => Ascii.eqb a c || contains_char c s'
  end.

Definition hex_digit (n : nat) : ascii :=
  match n with
  | 0 => "0" | 1 => "1" | 2 => "2" | 3 => "3" | 4 => "4" | 5 => "5"
  | 6 => "6" | 7 => "7" | 8 => "8" | 9 => "9" | 10 => "a" | 11 => "b"
  | 12 => "c" | 13 => "d" | 14 => "e" | _ => "f"
  end%nat%char.

(** One character of [repr] of a string delimited by [q]. *)
Definition repr_char (q c : ascii) : string :=
  let n := nat_of_ascii c in
  if Ascii.eqb c q || Ascii.eqb c backslash then String backslash (String c "")
  else if Nat.eqb n 9 then String backslash "t"
  else if Nat.eqb n 10 then String backslash "n"
  else if Nat.eqb n 13 then String backslash "r"
  else if Nat.ltb n 32 || Nat.eqb n 127 then
    String backslash
      (String "x" (String (hex_digit (n / 16)) (String (hex_digit (n mod 16)) "")))
  else String c "".

Fixpoint repr_chars (q : ascii) (s : string) : string :=
  match s with
  | EmptyString => ""
  | String c s' => repr_char q c ++ repr_chars q s'
  end.

(** [repr(s)] for a [str]: double quotes only when the text has a single
    quote and no double quote. *)
Definition repr_str (s : string) : string :=
  let q := if contains_char squote s && negb (contains_char dquote s)
           then dquote else squote in
  String q (repr_chars q s ++ String q "").

Definition join (sep : string) (l : list string) : string := String.concat sep l.

(** [repr(v)]. *)
Fixpoint repr (v : pyval) : string :=
  match v with
  | PNone => "None"
  | PBool true => "True"
  | PBool false => "False"
  | PInt n => str_of_int n
  | PStr s => repr_str s
  | PList l => "[" ++ join ", " (map repr l) ++ "]"
  | PDict d =>
      "{" ++ join ", " (map (fun kv => repr_str (fst kv) ++ ": " ++ repr (snd kv)) d)
          ++ "}"
  end.

(** [str(v)], also what an f-string field [{v}] formats to. *)
Definition str (v : pyval) : string :=
  match v with
  | PStr s => s
  | _ => repr v
  end.

Definition lower_char (c : ascii) : ascii :=
  let n := nat_of_ascii c in
  if Nat.leb 65 n && Nat.leb n 90 then ascii_of_nat (n + 32) else c.

(** [s.lower()]. *)
Fixpoint lower (s : string) : string :=
  match s with
  | EmptyString => ""
  | String c s' => String (lower_char c) (lower s')
  end.

End Py.

(** ** Dictionaries *)

Module Dict.

Definition keys {V} (d : list (string * V)) : list string := map fst d.

(** [d.get(k)]: the value bound to [k], if any. *)
Fixpoint get {V} (d : list (string * V)) (k : string) : option V :=
  match d with
  | [] => None
  | (k', v) :: d' => if String.eqb k' k then Some v else get d' k
  end.

(** [d[k] = v]: an existing key keeps its position, a new key goes last. *)
Fixpoint set {V} (d : list (string * V)) (k : string) (v : V) : list (string * V) :=
  match d with
  | [] => [(k, v)]
  | (k', v') :: d' =>
      if String.eqb k' k then (k', v) :: d' else (k', v') :: set d' k v
  end.

(** [d.update(other)]: the items of [other] are assigned in order. *)
Definition update {V} (d other : list (string * V)) : list (string * V) :=
  fold_left (fun acc kv => set acc (fst kv) (snd kv)) other d.

(** A dictionary holds each key once. *)
Definition wf {V} (d : list (string * V)) : Prop := NoDup (keys d).

End Dict.

(** ** Exceptions and the effect monad *)

(** The exceptions the client can end with: the [ValueError] it raises itself,
    and those of [response.json()] and of subscripting the decoded token
    response. *)
Inductive exn : Type :=
| ValueError (msg : string)
| JSONDecodeError
| KeyError (key : string)
| TypeError.

(** A computation over a state [S] that returns a value or raises. *)
Definition M (S A : Type) : Type := S -> (A + exn) * S.

Definition ret {S A} (a : A) : M S A := fun s => (inl a, s).

Definition raise {S A} (e : exn) : M S A := fun s => (inr e, s).

Definition bind {S A B} (m : M S A) (k : A -> M S B) : M S B :=
  fun s =>
    match m s with
    | (inl a, s') => k a s'
    | (inr e, s') => (inr e, s')
    end.

Definition gets {S A} (f : S -> A) : M S A := fun s => (inl (f s), s).

Declare Scope py_scope.
Delimit Scope py_scope with py.
Notation "x <- m ;; k" := (bind m (fun x => k))
  (at level 100, m at next level, right associativity) : py_scope.
Notation "m ;;; k" := (bind m (fun _ => k))
  (at level 100, right associativity) : py_scope.
Open Scope py_scope.

(** ** The HTTP transport *)

Inductive http_verb : Type := GET | POST | DELETE.

(** The arguments of one [requests] call. *)
Record request : Type := mkRequest {
  verb : http_verb;
  url : string;
  headers : list (string * string);
  json_body : option pyval
}.

(** What [requests] hands back: [decoded] is the outcome of [response.json()],
    [None] when the body is not JSON. *)
Record response : Type := mkResponse {
  status_code : Z;
  text : string;
  decoded : option pyval
}.

(** The outside world: the requests sent so far and the lines printed. *)
Record world : Type := mkWorld {
  sent : list request;
  stdout : list string
}.

(** The client object's attributes. *)
Record OrchApi : Type := mkOrchApi {
  base_url : string;
  access_token : pyval
}.

(** A method runs on the object and the world. *)
Record state : Type := mkState {
  self : OrchApi;
  io : world
}.

Definition in_world {A} (m : M world A) : M state A :=
  fun s => let (r, w) := m (io s) in (r, {| self := self s; io := w |}).

Definition print (line : string) : M world unit :=
  fun w => (inl tt, {| sent := sent w; stdout := stdout w ++ [line] |}).

(** [response.json()]. *)
Definition json {S} (r : response) : M S pyval :=
  match decoded r with
  | Some v => ret v
  | None => raise JSONDecodeError
  end.

(** [v[k]] for a string [k]. *)
Definition getitem {S} (v : pyval) (k : string) : M S pyval :=
  match v with
  | PDict d =>
      match Dict.get d k with
      | Some x => ret x
      | None => raise (KeyError k)
      end
  | _ => raise TypeError
  end.

Definition CONTENT_TYPE_JSON : string := "application/json".

Definition default_tokenurl : string := "https://account.uipath.com/oauth/token".
Definition default_value_scope : string := "Global".
Definition default_asset_description : string := "using api".
Definition default_priority : string := "Normal".
Definition default_queue_description : string := "created using api".

(** The message every failed call raises: what was attempted, the status code
    and the response text. *)
Definition failure (what : string) (r : response) : string :=
  "Failed to " ++ what ++ ". Status code: " ++ Py.str_of_int (status_code r)
    ++ ". Response: " ++ text r.

Definition value_types : list string := ["Integer"; "Boolean"; "String"; "Credential"].

(** Lines 134-153: the body before the branch on the value type. *)
Definition create_asset_base (name : string) (value : pyval)
    (value_type value_scope description : string) : dict :=
  [ ("Name", PStr name);
    ("CanBeDeleted", PBool true);
    ("ValueScope", PStr value_scope);
    ("ValueType", PStr value_type);
    ("Value", PStr (Py.str value));
    ("StringValue", PStr "");
    ("BoolValue", PBool false);
    ("IntValue", PInt 0);
    ("CredentialUsername", PStr "");
    ("CredentialPassword", PStr "");
    ("ExternalName", PStr "");
    ("CredentialStoreId", PInt 0);
    ("KeyValueList", PList []);
    ("HasDefaultValue", PBool false);
    ("Description", PStr description);
    ("RobotValues", PList []);
    ("UserValues", PList []);
    ("Tags", PList []) ].

(** Lines 134-164: the body [create_asset] posts. *)
Definition create_asset_body (name : string) (value : pyval)
    (value_type value_scope description : string) (username password : pyval) : dict :=
  let body := create_asset_base name value value_type value_scope description in
  if (value_type =? "Integer")%string then
    Dict.set body "IntValue" value
  else if (value_type =? "Boolean")%string then
    let body := Dict.set body "BoolValue" value in
    Dict.set body "Value" (PStr (Py.lower (Py.str value)))
  else if (value_type =? "String")%string then
    Dict.set body "StringValue" value
  else if (value_type =? "Credential")%string then
    let body := Dict.set body "CredentialUsername" username in
    Dict.set body "CredentialPassword" password
  else body.

(** Lines 183-191. *)
Definition add_queue_item_body (queue_name : string) (specific_content : dict)
    (priority : string) (kwargs : dict) : dict :=
  let body :=
    [ ("itemData",
       PDict [ ("Name", PStr queue_name);
               ("Priority", PStr priority);
               ("SpecificContent", PDict specific_content) ]) ] in
  Dict.update body kwargs.

(** Lines 210-216. *)
Definition create_queue_body (name description : string) (kwargs : dict) : dict :=
  let body := [ ("Name", PStr name); ("Description", PStr description) ] in
  Dict.update body kwargs.

Section Client.

(** The remote side: the response to a request, given the requests that came
    before it. *)
Variable server : list request -> request -> response.

(** [requests.get], [requests.post], [requests.delete]: the call is logged and
    the server's response handed back (a transport that cannot reach the
    server is outside the model). *)
Definition send (r : request) : M world response :=
  fun w => (inl (server (sent w) r), {| sent := sent w ++ [r]; stdout := stdout w |}).

(** [OrchApi(client_id, refresh_token, base_url, tokenurl)]: the object exists
    only if [__init__] returns. *)
Definition init (client_id refresh_token base_url tokenurl : string) : M world OrchApi :=
  let token_url := tokenurl in
  let body :=
    [ ("grant_type", PStr "refresh_token");
      ("client_id", PStr client_id);
      ("refresh_token", PStr refresh_token) ] in
  let headers := [ ("Authorization", "Bearer"); ("Content-Type", CONTENT_TYPE_JSON) ] in
  response <- send (mkRequest POST token_url headers (Some (PDict body))) ;;
  access <- json response ;;
  if status_code response =? 200 then
    token <- getitem access "access_token" ;;
    ret {| base_url := base_url; access_token := token |}
  else
    raise (ValueError (failure "retrieve access token" response)).

Definition get_all_assets : M state (pyval * response) :=
  base <- gets (fun s => base_url (self s)) ;;
  token <- gets (fun s => access_token (self s)) ;;
  let uri :=
    base ++ "/odata/Assets/UiPath.Server.Configuration.OData.GetAssetsAcrossFolders" in
  let headers :=
    [ ("Authorization", "Bearer " ++ Py.str token);
      ("Content-Type", "application/json;odata.metadata=minimal;odata.streaming=True");
      ("accept", CONTENT_TYPE_JSON) ] in
  response <- in_world (send (mkRequest GET uri headers None)) ;;
  if status_code response =? 200 then
    j <- json response ;;
    ret (j, response)
  else
    raise (ValueError (failure "retrieve assets" response)).

(** The headers of every call scoped to an organization unit. *)
Definition unit_headers (token : pyval) (id : Z) : list (string * string) :=
  [ ("Authorization", "Bearer " ++ Py.str token);
    ("X-UIPATH-OrganizationUnitId", Py.str_of_int id);
    ("accept", CONTENT_TYPE_JSON) ].

Definition get_assets_by_key (key id : Z) : M state (pyval * response) :=
  base <- gets (fun s => base_url (self s)) ;;
  token <- gets (fun s => access_token (self s)) ;;
  let uri := base ++ "/odata/Assets(" ++ Py.str_of_int key ++ ")" in
  let headers := unit_headers token id in
  response <- in_world (send (mkRequest GET uri headers None)) ;;
  if status_code response =? 200 then
    j <- json response ;;
    ret (j, response)
  else
    raise (ValueError (failure "retrieve assets" response)).

Definition delete_asset (key id : Z) : M state unit :=
  base <- gets (fun s => base_url (self s)) ;;
  token <- gets (fun s => access_token (self s)) ;;
  let uri := base ++ "/odata/Assets(" ++ Py.str_of_int key ++ ")" in
  let headers := unit_headers token id in
  response <- in_world (send (mkRequest DELETE uri headers None)) ;;
  if status_code response =? 204 then
    in_world (print "Asset has been deleted.")
  else
    raise (ValueError (failure "delete asset" response)).

Definition create_asset (id : Z) (name : string) (value : pyval)
    (value_type value_scope description : string) (username password : pyval)
  : M state (pyval * response) :=
  if negb (existsb (String.eqb value_type) value_types) then
    raise (ValueError
      "Invalid value_type. Expected 'Integer', 'Boolean', 'String', or 'Credential'.")
  else
    base <- gets (fun s => base_url (self s)) ;;
    token <- gets (fun s => access_token (self s)) ;;
    let uri := base ++ "/odata/Assets" in
    let headers := unit_headers token id in
    let body :=
      create_asset_body name value value_type value_scope description username password in
    response <- in_world (send (mkRequest POST uri headers (Some (PDict body)))) ;;
    if status_code response =? 201 then
      j <- json response ;;
      ret (j, response)
    else
      raise (ValueError (failure "create asset" response)).

Definition add_queue_item (id : Z) (queue_name : string) (specific_content : dict)
    (priority : string) (kwargs : dict) : M state (pyval * response) :=
  base <- gets (fun s => base_url (self s)) ;;
  token <- gets (fun s => access_token (self s)) ;;
  let uri := base ++ "/odata/Queues/UiPathODataSvc.AddQueueItem" in
  let headers := unit_headers token id in
  let body := add_queue_item_body queue_name specific_content priority kwargs in
  response <- in_world (send (mkRequest POST uri headers (Some (PDict body)))) ;;
  if status_code response =? 201 then
    j <- json response ;;
    ret (j, response)
  else
    raise (ValueError (failure "create queue item" response)).

Definition create_queue (id : Z) (name description : string) (kwargs : dict)
  : M state (pyval * response) :=
  base <- gets (fun s => base_url (self s)) ;;
  token <- gets (fun s => access_token (self s)) ;;
  let uri := base ++ "/odata/QueueDefinitions" in
  let headers := unit_headers token id in
  let body := create_queue_body name description kwargs in
  response <- in_world (send (mkRequest POST uri headers (Some (PDict body)))) ;;
  if status_code response =? 201 then
    j <- json response ;;
    ret (j, response)
  else
    raise (ValueError (failure "create queue" response)).

(** One call of a method on a constructed client, with its arguments. *)
Inductive call : Type :=
| GetAllAssets
| GetAssetsByKey (key id : Z)
| DeleteAsset (key id : Z)
| CreateAsset (id : Z) (name : string) (value : pyval)
    (value_type value_scope description : string) (username password : pyval)
| AddQueueItem (id : Z) (queue_name : string) (specific_content : dict)
    (priority : string) (kwargs : dict)
| CreateQueue (id : Z) (name description : string) (kwargs : dict).

(** What a method returns: [None], or the decoded JSON with the response. *)
Inductive returned : Type :=
| RNone
| RJson (j : pyval) (r : response).

Definition with_json (m : M state (pyval * response)) : M state returned :=
  p <- m ;; ret (RJson (fst p) (snd p)).

Definition run (c : call) : M state returned :=
  match c with
  | GetAllAssets => with_json get_all_assets
  | GetAssetsByKey key id => with_json (get_assets_by_key key id)
  | DeleteAsset key id => (delete_asset key id ;;; ret RNone)
  | CreateAsset id name value value_type value_scope description username password =>
      with_json
        (create_asset id name value value_type value_scope description username password)
  | AddQueueItem id queue_name specific_content priority kwargs =>
      with_json (add_queue_item id queue_name specific_content priority kwargs)
  | CreateQueue id name description kwargs =>
      with_json (create_queue id name description kwargs)
  end.

(** Whether the call gets past its local validation. *)
Definition validates (c : call) : bool :=
  match c with
  | CreateAsset _ _ _ value_type _ _ _ _ => existsb (String.eqb value_type) value_types
  | _ => true
  end.

End Client.

(** ** Observing a run *)

(** The requests a computation adds to the log when run from [s]. *)
Definition requests_of {A} (m : M state A) (s : state) : list request :=
  skipn (List.length (sent (io s))) (sent (io (snd (m s)))).

(** A computation that leaves the client object as it found it. *)
Definition frame {A} (m : M state A) : Prop :=
  forall s, self (snd (m s)) = self s.

(** The JSON object of the one request a computation sends. *)
Definition posted_body {A} (m : M state A) (s : state) : option dict :=
  match requests_of m s with
  | [r] =>
      match json_body r with
      | Some (PDict d) => Some d
      | _ => None
      end
  | _ => None
  end.

(** The fixed schema of an asset body, with its six value fields as
    arguments and every other field at its default. *)
Definition asset_schema (name value_scope value_type description : string)
    (Value StringValue BoolValue IntValue CredentialUsername CredentialPassword : pyval)
  : dict :=
  [ ("Name", PStr name);
    ("CanBeDeleted", PBool true);
    ("ValueScope", PStr value_scope);
    ("ValueType", PStr value_type);
    ("Value", Value);
    ("StringValue", StringValue);
    ("BoolValue", BoolValue);
    ("IntValue", IntValue);
    ("CredentialUsername", CredentialUsername);
    ("CredentialPassword", CredentialPassword);
    ("ExternalName", PStr "");
    ("CredentialStoreId", PInt 0);
    ("KeyValueList", PList []);
    ("HasDefaultValue", PBool false);
    ("Description", PStr description);
    ("RobotValues", PList []);
    ("UserValues", PList []);
    ("Tags", PList []) ].

(** The asset body as the specification words it: the tag's own fields are
    populated, [Value] among them for Boolean only, and every other value
    field is at its empty default, [Value] included. *)
Definition documented_asset_body (name : string) (value : pyval)
    (value_type value_scope description : string) (username password : pyval) : dict :=
  asset_schema name value_scope value_type description
    (if (value_type =? "Boolean")%string
     then PStr (Py.lower (Py.str value)) else PStr "")
    (if (value_type =? "String")%string then value else PStr "")
    (if (value_type =? "Boolean")%string then value else PBool false)
    (if (value_type =? "Integer")%string then value else PInt 0)
    (if (value_type =? "Credential")%string then username else PStr "")
    (if (value_type =? "Credential")%string then password else PStr "").

(** The token request [__init__] sends. *)
Definition token_request (client_id refresh_token tokenurl : string) : request :=
  mkRequest POST tokenurl
    [ ("Authorization", "Bearer"); ("Content-Type", CONTENT_TYPE_JSON) ]
    (Some (PDict [ ("grant_type", PStr "refresh_token");
                   ("client_id", PStr client_id);
                   ("refresh_token", PStr refresh_token) ])).

(** A request that carries the bearer token and asks for JSON. *)
Definition authenticated (token : string) (r : request) : Prop :=
  Dict.get (headers r) "Authorization" = Some ("Bearer " ++ token)
  /\ Dict.get (headers r) "accept" = Some "application/json".

(** The request [delete_asset] sends. *)
Definition delete_request (c : OrchApi) (key id : Z) : request :=
  mkRequest DELETE (base_url c ++ "/odata/Assets(" ++ Py.str_of_int key ++ ")")
    (unit_headers (access_token c) id) None.

(** A computation that prints nothing. *)
Definition quiet {A} (m : M state A) : Prop :=
  forall s, stdout (io (snd (m s))) = stdout (io s).

(** The organization unit a call is made for, if it names one. *)
Definition organization_unit (c : call) : option Z :=
  match c with
  | GetAllAssets => None
  | GetAssetsByKey _ id => Some id
  | DeleteAsset _ id => Some id
  | CreateAsset id _ _ _ _ _ _ _ => Some id
  | AddQueueItem id _ _ _ _ => Some id
  | CreateQueue id _ _ _ => Some id
  end.

(** ** Sample servers and states *)

(** A server that answers every request with the same response. *)
Definition always (r : response) : list request -> request -> response :=
  fun _ _ => r.

Definition quoted (s : string) : string :=
  String Py.dquote (s ++ String Py.dquote "").

Definition token_abc : response :=
  {| status_code := 200;
     text := "{" ++ quoted "access_token" ++ ":" ++ quoted "abc" ++ "}";
     decoded := Some (PDict [("access_token", PStr "abc")]) |}.

Definition unauthorized : response :=
  {| status_code := 401; text := "Unauthorized"; decoded := None |}.

Definition not_found : response :=
  {| status_code := 404; text := "not found"; decoded := None |}.

Definition created : response :=
  {| status_code := 201; text := "{}"; decoded := Some (PDict []) |}.

Definition ok_empty : response :=
  {| status_code := 200; text := "{}"; decoded := Some (PDict []) |}.

Definition ok_list : response :=
  {| status_code := 200; text := "[]"; decoded := Some (PList []) |}.

Definition ok_null_token : response :=
  {| status_code := 200;
     text := "{" ++ quoted "access_token" ++ ":null}";
     decoded := Some (PDict [("access_token", PNone)]) |}.

Definition fresh : world := {| sent := []; stdout := [] |}.

Definition sample_client : OrchApi :=
  {| base_url := "https://orch.example"; access_token := PStr "abc" |}.

Definition sample_state : state := {| self := sample_client; io := fresh |}.

(** ** Facts about dictionaries *)

Module DictFacts.

Lemma get_set_same {V} (d : list (string * V)) k v :
  Dict.get (Dict.set d k v) k = Some v.
Proof.
  induction d as [|[k' v'] d IH]; simpl.
  - now rewrite String.eqb_refl.
  - destruct (String.eqb k' k) eqn:E; simpl; rewrite E; auto.
Qed.

Lemma get_set_other {V} (d : list (string * V)) k k' v :
  k <> k' -> Dict.get (Dict.set d k v) k' = Dict.get d k'.
Proof.
  intros Hne. induction d as [|[k0 v0] d IH]; simpl.
  - destruct (String.eqb_spec k k'); congruence.
  - destruct (String.eqb_spec k0 k) as [->|Hk]; simpl.
    + destruct (String.eqb_spec k k'); congruence.
    + now rewrite IH.
Qed.

Lemma get_update_absent {V} (other d : list (string * V)) k :
  ~ In k (Dict.keys other) -> Dict.get (Dict.update d other) k = Dict.get d k.
Proof.
  revert d. induction other as [|[k0 v0] other IH]; intros d Hk; simpl in *.
  - reflexivity.
  - unfold Dict.update in *. simpl. rewrite IH by tauto.
    apply get_set_other. tauto.
Qed.

(** Updating with a well-formed dictionary makes each of its bindings the
    final one. *)
Lemma get_update_present {V} (other d : list (string * V)) k v :
  Dict.wf other -> Dict.get other k = Some v ->
  Dict.get (Dict.update d other) k = Some v.
Proof.
  revert d. induction other as [|[k0 v0] other IH]; intros d Hwf Hget; simpl in *.
  - discriminate.
  - unfold Dict.wf in *. simpl in Hwf. inversion Hwf as [|? ? Hnotin Hrest]; subst.
    change (Dict.update d ((k0, v0) :: other))
      with (Dict.update (Dict.set d k0 v0) other).
    destruct (String.eqb_spec k0 k) as [->|Hne].
    + injection Hget as ->.
      rewrite get_update_absent by exact Hnotin.
      apply get_set_same.
    + now apply IH.
Qed.

End DictFacts.

(** ** Facts about runs *)

#[local] Arguments String.append : simpl never.

Lemma skipn_length_app {A} (l l' : list A) : skipn (List.length l) (l ++ l') = l'.
Proof. induction l; simpl; auto. Qed.

Lemma skipn_length_nil {A} (l : list A) : skipn (List.length l) l = [].
Proof. induction l; simpl; auto. Qed.

(** Unfolds a method down to the response of the server. *)
Ltac run_method :=
  unfold posted_body, requests_of, run, with_json, init, get_all_assets,
    get_assets_by_key, delete_asset, create_asset, add_queue_item, create_queue,
    bind, gets, ret, raise, in_world, send, print, json, getitem;
  simpl.

(** Splits on what the server answered. *)
Ltac on_response :=
  repeat match goal with
    | |- context [Z.eqb (status_code ?r) ?n] =>
        destruct (Z.eqb_spec (status_code r) n); simpl
    | |- context [decoded ?r] => destruct (decoded r); simpl
    end.

(** [create_asset] with a valid tag posts the body of lines 134-164 to
    [/odata/Assets]. *)
Lemma create_asset_posts server s id name value value_type scope descr user pass :
  existsb (String.eqb value_type) value_types = true ->
  requests_of (create_asset server id name value value_type scope descr user pass) s
  = [ mkRequest POST (base_url (self s) ++ "/odata/Assets")
        (unit_headers (access_token (self s)) id)
        (Some (PDict (create_asset_body name value value_type scope descr user pass))) ].
Proof.
  intros Hvalid. unfold requests_of, create_asset. rewrite Hvalid.
  run_method. on_response; apply skipn_length_app.
Qed.

(** ** Asset bodies *)

Example str_samples :
  Py.str (PInt 42) = "42" /\ Py.str (PInt (-7)) = "-7" /\ Py.str (PInt 0) = "0"
  /\ Py.str (PBool true) = "True" /\ Py.str PNone = "None"
  /\ Py.str (PStr "Hello") = "Hello" /\ Py.lower "Hello World" = "hello world".
Proof. repeat split. Qed.

Example repr_sample :
  Py.str (PDict [("a", PList [PInt (-3); PBool true; PNone]); ("b", PStr "it's")])
  = "{'a': [-3, True, None], 'b': " ++ quoted "it's" ++ "}".
Proof. reflexivity. Qed.

(** C1, as stated, fails on [Value]: an Integer asset with value 5 is posted
    with [Value] at the text [5], where the documented body has the empty
    string; every other field of the two bodies agrees. *)
Lemma integer_asset_value_is_not_default :
  posted_body
    (create_asset (always created) 7 "retries" (PInt 5) "Integer"
       default_value_scope default_asset_description PNone PNone) sample_state
  <> Some (documented_asset_body "retries" (PInt 5) "Integer"
             default_value_scope default_asset_description PNone PNone)
  /\ (exists body,
        posted_body
          (create_asset (always created) 7 "retries" (PInt 5) "Integer"
             default_value_scope default_asset_description PNone PNone) sample_state
        = Some body
        /\ Dict.get body "Value" = Some (PStr "5")
        /\ Dict.get
             (documented_asset_body "retries" (PInt 5) "Integer"
                default_value_scope default_asset_description PNone PNone) "Value"
           = Some (PStr "")
        /\ forall k, k <> "Value" ->
             Dict.get body k
             = Dict.get
                 (documented_asset_body "retries" (PInt 5) "Integer"
                    default_value_scope default_asset_description PNone PNone) k).
Proof.
  split; [discriminate|].
  exists (asset_schema "retries" "Global" "Integer" "using api"
            (PStr "5") (PStr "") (PBool false) (PInt 5) (PStr "") (PStr "")).
  split; [reflexivity|]. split; [reflexivity|]. split; [reflexivity|].
  intros k Hk.
  assert (E : String.eqb "Value" k = false) by (apply String.eqb_neq; congruence).
  assert (Hdoc :
    documented_asset_body "retries" (PInt 5) "Integer"
      default_value_scope default_asset_description PNone PNone
    = asset_schema "retries" "Global" "Integer" "using api"
        (PStr "") (PStr "") (PBool false) (PInt 5) (PStr "") (PStr ""))
    by reflexivity.
  rewrite Hdoc. unfold asset_schema. cbn [Dict.get]. rewrite E. reflexivity.
Qed.

(** C1, amended. For each of the four value-type tags, the body [create_asset]
    posts is the fixed schema with exactly the tag's fields overwritten:
    [IntValue] for Integer; [BoolValue] and the lowercased [Value] for
    Boolean; [StringValue] for String; [CredentialUsername] and
    [CredentialPassword] for Credential.  Every other field keeps the value
    the base body of lines 134-153 gives it: the constants of [asset_schema],
    the caller's name, scope, type and description, and [Value] at
    [str(value)], not the empty string. *)
Theorem create_asset_populates_exactly
    server s id name value scope descr user pass :
  let posts value_type body :=
    requests_of (create_asset server id name value value_type scope descr user pass) s
    = [ mkRequest POST (base_url (self s) ++ "/odata/Assets")
          (unit_headers (access_token (self s)) id) (Some (PDict body)) ] in
  posts "Integer"
    (asset_schema name scope "Integer" descr
       (PStr (Py.str value)) (PStr "") (PBool false) value (PStr "") (PStr ""))
  /\ posts "Boolean"
    (asset_schema name scope "Boolean" descr
       (PStr (Py.lower (Py.str value))) (PStr "") value (PInt 0) (PStr "") (PStr ""))
  /\ posts "String"
    (asset_schema name scope "String" descr
       (PStr (Py.str value)) value (PBool false) (PInt 0) (PStr "") (PStr ""))
  /\ posts "Credential"
    (asset_schema name scope "Credential" descr
       (PStr (Py.str value)) (PStr "") (PBool false) (PInt 0) user pass).
Proof.
  cbv zeta. repeat split; rewrite create_asset_posts by reflexivity; reflexivity.
Qed.

(** C2. A Boolean asset created with [True] is posted with [BoolValue] true
    and [Value] the lowercase string [true]; with [False], [BoolValue] is
    false and [Value] is [false]. *)
Theorem create_asset_boolean_dual_encoding
    server s id name scope descr user pass (b : bool) :
  exists body,
    posted_body
      (create_asset server id name (PBool b) "Boolean" scope descr user pass) s
    = Some body
    /\ Dict.get body "BoolValue" = Some (PBool b)
    /\ Dict.get body "Value" = Some (PStr (if b then "true" else "false")).
Proof.
  eexists. unfold posted_body.
  rewrite create_asset_posts by reflexivity. simpl.
  split; [reflexivity|]. destruct b; split; reflexivity.
Qed.

(** C9. The schema's [Value] field is initialised to [str(value)] whatever the
    tag, so an Integer, String or Credential asset is posted with [Value] at
    [str(value)]; only the Boolean branch replaces it, by the lowercased
    form. *)
Theorem create_asset_value_is_str
    server s id name value scope descr user pass :
  let value_field value_type :=
    match
      posted_body
        (create_asset server id name value value_type scope descr user pass) s
    with
    | Some body => Dict.get body "Value"
    | None => None
    end in
  (forall value_type,
      Dict.get (create_asset_base name value value_type scope descr) "Value"
      = Some (PStr (Py.str value)))
  /\ value_field "Integer" = Some (PStr (Py.str value))
  /\ value_field "String" = Some (PStr (Py.str value))
  /\ value_field "Credential" = Some (PStr (Py.str value))
  /\ value_field "Boolean" = Some (PStr (Py.lower (Py.str value))).
Proof.
  cbv zeta. unfold posted_body.
  repeat split; try rewrite create_asset_posts by reflexivity; reflexivity.
Qed.

Example integer_asset_value_not_empty :
  posted_body
    (create_asset (always created) 7 "retries" (PInt 5) "Integer"
       default_value_scope default_asset_description PNone PNone) sample_state
  = Some (asset_schema "retries" "Global" "Integer" "using api"
            (PStr "5") (PStr "") (PBool false) (PInt 5) (PStr "") (PStr "")).
Proof. reflexivity. Qed.

(** ** Validation *)

Lemma valid_type_spec value_type :
  existsb (String.eqb value_type) value_types = true <-> In value_type value_types.
Proof.
  rewrite existsb_exists. split.
  - intros [x [Hin Heq]]. apply String.eqb_eq in Heq. now subst.
  - intros Hin. exists value_type. split; [assumption | apply String.eqb_refl].
Qed.

(** C5. With a value type outside the four literals, [create_asset] raises its
    validation error and sends nothing: the log of requests, and the whole
    state, are as before the call. *)
Theorem create_asset_rejects_unknown_type
    server s id name value value_type scope descr user pass :
  ~ In value_type value_types ->
  create_asset server id name value value_type scope descr user pass s
  = (inr (ValueError
       "Invalid value_type. Expected 'Integer', 'Boolean', 'String', or 'Credential'."),
     s)
  /\ requests_of
       (create_asset server id name value value_type scope descr user pass) s = [].
Proof.
  intros Hbad.
  assert (E : existsb (String.eqb value_type) value_types = false).
  { destruct (existsb _ _) eqn:E; [|reflexivity].
    apply valid_type_spec in E. contradiction. }
  unfold requests_of, create_asset. rewrite E. simpl. unfold raise. simpl.
  split; [reflexivity | apply skipn_length_nil].
Qed.

Lemma create_asset_rejects_unknown_type_witness :
  create_asset (always created) 7 "ratio" (PInt 1) "Float" "Global" "using api"
    PNone PNone sample_state
  = (inr (ValueError
       "Invalid value_type. Expected 'Integer', 'Boolean', 'String', or 'Credential'."),
     sample_state)
  /\ requests_of
       (create_asset (always created) 7 "ratio" (PInt 1) "Float" "Global" "using api"
          PNone PNone) sample_state = [].
Proof.
  apply (create_asset_rejects_unknown_type (always created) sample_state 7 "ratio"
           (PInt 1) "Float" "Global" "using api" PNone PNone).
  simpl. intros H.
  repeat (destruct H as [H|H]; [discriminate H|]). exact H.
Defined.

(** ** Deletion *)

(** C7. [delete_asset] returns exactly when the response status is 204; on any
    other status it raises the error built from that status code and the
    response text. *)
Theorem delete_asset_succeeds_iff_204 server s key id :
  let response := server (sent (io s)) (delete_request (self s) key id) in
  (fst (delete_asset server key id s) = inl tt <-> status_code response = 204)
  /\ (status_code response <> 204 ->
      fst (delete_asset server key id s)
      = inr (ValueError
               ("Failed to delete asset. Status code: "
                ++ Py.str_of_int (status_code response)
                ++ ". Response: " ++ text response))).
Proof.
  cbv zeta. unfold delete_request. run_method. unfold failure.
  on_response; split; try split; try tauto; try congruence; discriminate.
Qed.

Lemma delete_asset_succeeds_iff_204_witness :
  fst (delete_asset (always not_found) 12 7 sample_state)
  = inr (ValueError "Failed to delete asset. Status code: 404. Response: not found").
Proof.
  apply (proj2 (delete_asset_succeeds_iff_204 (always not_found) sample_state 12 7)).
  simpl. discriminate.
Defined.

(** ** The client's attributes *)

Section Frame.

Context {A B : Type}.

Lemma frame_ret (a : A) : frame (ret a).
Proof. intros s. reflexivity. Qed.

Lemma frame_raise (e : exn) : frame (@raise state A e).
Proof. intros s. reflexivity. Qed.

Lemma frame_gets (f : state -> A) : frame (gets f).
Proof. intros s. reflexivity. Qed.

Lemma frame_in_world (m : M world A) : frame (in_world m).
Proof. intros s. unfold in_world. destruct (m (io s)). reflexivity. Qed.

Lemma frame_json (r : response) : frame (@json state r).
Proof. intros s. unfold json. destruct (decoded r); reflexivity. Qed.

Lemma frame_bind (m : M state A) (k : A -> M state B) :
  frame m -> (forall a, frame (k a)) -> frame (bind m k).
Proof.
  intros Hm Hk s. unfold bind. specialize (Hm s).
  destruct (m s) as [[a|e] s']; simpl in *.
  - now rewrite Hk.
  - assumption.
Qed.

End Frame.

Create HintDb frame.

#[local] Hint Resolve frame_ret frame_raise frame_gets frame_in_world frame_json
  : frame.

(** Walks down a method, one [bind] or branch at a time. *)
Ltac frame_step :=
  match goal with
  | |- frame (bind _ _) => apply frame_bind; [| intros ?]
  | |- frame (if ?b then _ else _) => destruct b
  | |- frame _ => solve [auto with frame]
  end.

Lemma run_frame server (c : call) : frame (run server c).
Proof.
  destruct c; unfold run, with_json, get_all_assets, get_assets_by_key,
    delete_asset, create_asset, add_queue_item, create_queue;
    repeat frame_step.
Qed.

(** C10. No method changes the object it is called on: after any call, whether
    it returned or raised, [base_url] and [access_token] are what they were. *)
Theorem methods_preserve_client server (c : call) (s : state) :
  base_url (self (snd (run server c s))) = base_url (self s)
  /\ access_token (self (snd (run server c s))) = access_token (self s).
Proof. now rewrite run_frame. Qed.

(** ** Queues *)

Lemma create_queue_posts server s id name descr kwargs :
  posted_body (create_queue server id name descr kwargs) s
  = Some (create_queue_body name descr kwargs).
Proof.
  run_method. on_response; rewrite skipn_length_app; reflexivity.
Qed.

Lemma add_queue_item_posts server s id queue_name content priority kwargs :
  posted_body (add_queue_item server id queue_name content priority kwargs) s
  = Some (add_queue_item_body queue_name content priority kwargs).
Proof.
  run_method. on_response; rewrite skipn_length_app; reflexivity.
Qed.

(** C3. In the body [create_queue] posts and in the body [add_queue_item]
    posts, every key the caller overrides is bound to the caller's value, also
    when the base body has that key ([Name], [Description], [itemData]). *)
Theorem overrides_take_precedence
    server s id name descr content priority (kwargs : dict) k v :
  Dict.wf kwargs ->
  Dict.get kwargs k = Some v ->
  (exists body,
      posted_body (create_queue server id name descr kwargs) s = Some body
      /\ Dict.get body k = Some v)
  /\ (exists body,
      posted_body (add_queue_item server id name content priority kwargs) s
      = Some body
      /\ Dict.get body k = Some v).
Proof.
  intros Hwf Hget. split; eexists.
  - rewrite create_queue_posts. split; [reflexivity|].
    now apply DictFacts.get_update_present.
  - rewrite add_queue_item_posts. split; [reflexivity|].
    now apply DictFacts.get_update_present.
Qed.

Lemma overrides_take_precedence_witness :
  (exists body,
      posted_body
        (create_queue (always created) 7 "invoices" default_queue_description
           [("Name", PStr "orders")]) sample_state = Some body
      /\ Dict.get body "Name" = Some (PStr "orders"))
  /\ (exists body,
      posted_body
        (add_queue_item (always created) 7 "invoices" [("n", PInt 1)]
           default_priority [("Name", PStr "orders")]) sample_state = Some body
      /\ Dict.get body "Name" = Some (PStr "orders")).
Proof.
  apply (overrides_take_precedence (always created) sample_state 7 "invoices"
           default_queue_description [("n", PInt 1)] default_priority
           [("Name", PStr "orders")] "Name" (PStr "orders")).
  - repeat constructor. simpl. tauto.
  - reflexivity.
Defined.

Example create_queue_name_collision :
  posted_body
    (create_queue (always created) 7 "invoices" default_queue_description
       [("Name", PStr "orders"); ("MaxNumberOfRetries", PInt 3)]) sample_state
  = Some [ ("Name", PStr "orders"); ("Description", PStr "created using api");
           ("MaxNumberOfRetries", PInt 3) ].
Proof. reflexivity. Qed.

(** The [itemData] object [add_queue_item] builds. *)
Lemma item_data_untouched queue_name content priority kwargs :
  ~ In "itemData" (Dict.keys kwargs) ->
  Dict.get (add_queue_item_body queue_name content priority kwargs) "itemData"
  = Some (PDict [ ("Name", PStr queue_name); ("Priority", PStr priority);
                  ("SpecificContent", PDict content) ]).
Proof.
  intros Hk. unfold add_queue_item_body.
  now rewrite DictFacts.get_update_absent.
Qed.

(** C8. [add_queue_item] merges the overrides into the top level of the body
    only.  When no override key is [itemData], the body's [itemData] is the
    object built from the queue name, the priority and the content, and every
    override is a top-level field; an override under the key [itemData]
    replaces that whole object. *)
Theorem add_queue_item_overrides_top_level
    server s id queue_name content priority (kwargs : dict) :
  Dict.wf kwargs ->
  exists body,
    posted_body (add_queue_item server id queue_name content priority kwargs) s
    = Some body
    /\ (forall k v, Dict.get kwargs k = Some v -> Dict.get body k = Some v)
    /\ (~ In "itemData" (Dict.keys kwargs) ->
        Dict.get body "itemData"
        = Some (PDict [ ("Name", PStr queue_name); ("Priority", PStr priority);
                        ("SpecificContent", PDict content) ]))
    /\ (forall v, Dict.get kwargs "itemData" = Some v ->
        Dict.get body "itemData" = Some v).
Proof.
  intros Hwf. eexists. rewrite add_queue_item_posts.
  split; [reflexivity|]. repeat split.
  - intros k v Hget. now apply DictFacts.get_update_present.
  - apply item_data_untouched.
  - intros v Hget. now apply DictFacts.get_update_present.
Qed.

Lemma add_queue_item_overrides_top_level_witness :
  exists body,
    posted_body
      (add_queue_item (always created) 7 "invoices" [("n", PInt 1)] "High"
         [("Reference", PStr "r-1")]) sample_state = Some body
    /\ (forall k v,
         Dict.get [("Reference", PStr "r-1")] k = Some v -> Dict.get body k = Some v)
    /\ (~ In "itemData" (Dict.keys [("Reference", PStr "r-1")]) ->
        Dict.get body "itemData"
        = Some (PDict [ ("Name", PStr "invoices"); ("Priority", PStr "High");
                        ("SpecificContent", PDict [("n", PInt 1)]) ]))
    /\ (forall v, Dict.get [("Reference", PStr "r-1")] "itemData" = Some v ->
        Dict.get body "itemData" = Some v).
Proof.
  apply (add_queue_item_overrides_top_level (always created) sample_state 7
           "invoices" [("n", PInt 1)] "High" [("Reference", PStr "r-1")]).
  repeat constructor. simpl. tauto.
Defined.

Example add_queue_item_sibling_field :
  posted_body
    (add_queue_item (always created) 7 "invoices" [("n", PInt 1)] "High"
       [("Reference", PStr "r-1")]) sample_state
  = Some [ ("itemData",
            PDict [ ("Name", PStr "invoices"); ("Priority", PStr "High");
                    ("SpecificContent", PDict [("n", PInt 1)]) ]);
           ("Reference", PStr "r-1") ].
Proof. reflexivity. Qed.

Example add_queue_item_replaced_item_data :
  posted_body
    (add_queue_item (always created) 7 "invoices" [("n", PInt 1)] "High"
       [("itemData", PNone)]) sample_state
  = Some [ ("itemData", PNone) ].
Proof. reflexivity. Qed.

(** ** Construction *)

(** [__init__] sends the token request and nothing else. *)
Lemma init_sends server client_id refresh_token base tokenurl w :
  sent (snd (init server client_id refresh_token base tokenurl w))
  = (sent w ++ [token_request client_id refresh_token tokenurl])%list.
Proof.
  unfold token_request. run_method.
  on_response; try reflexivity;
    match goal with
    | |- context [match ?v with PDict _ => _ | _ => _ end] =>
        destruct v as [| | | | |d]; simpl; try reflexivity;
        destruct (Dict.get d "access_token"); reflexivity
    end.
Qed.

(** A token response whose body decodes and whose status is not 200 fails
    construction with the status code and the response text. *)
Lemma init_fails_with_status server client_id refresh_token base tokenurl w access :
  let response := server (sent w) (token_request client_id refresh_token tokenurl) in
  decoded response = Some access ->
  status_code response <> 200 ->
  fst (init server client_id refresh_token base tokenurl w)
  = inr (ValueError
           ("Failed to retrieve access token. Status code: "
            ++ Py.str_of_int (status_code response)
            ++ ". Response: " ++ text response)).
Proof.
  cbv zeta. unfold token_request. intros Hjson Hstatus. run_method.
  rewrite Hjson. simpl. unfold failure.
  on_response; [contradiction | reflexivity].
Qed.

(** A token response with a status other than 200 never yields a client. *)
Lemma init_non_200_no_client server client_id refresh_token base tokenurl w :
  status_code (server (sent w) (token_request client_id refresh_token tokenurl)) <> 200 ->
  exists e, fst (init server client_id refresh_token base tokenurl w) = inr e.
Proof.
  unfold token_request. intros Hstatus. run_method.
  on_response; try contradiction; eexists; reflexivity.
Qed.

(** C4, at a 401 response whose body is plain text: construction fails, but
    with the decoding error of [response.json()], which line 39 calls before
    the status is looked at; the error with the status code and the response
    text is not the one raised. *)
Theorem init_401_plain_text_body :
  init (always unauthorized) "client" "refresh" "https://orch.example"
    default_tokenurl fresh
  = (inr JSONDecodeError,
     {| sent := [token_request "client" "refresh" default_tokenurl]; stdout := [] |})
  /\ fst (init (always unauthorized) "client" "refresh" "https://orch.example"
            default_tokenurl fresh)
     <> inr (ValueError
               "Failed to retrieve access token. Status code: 401. Response: Unauthorized").
Proof. split; [reflexivity | discriminate]. Qed.

Example init_401_json_body :
  fst (init (always {| status_code := 401; text := "{}"; decoded := Some (PDict []) |})
         "client" "refresh" "https://orch.example" default_tokenurl fresh)
  = inr (ValueError "Failed to retrieve access token. Status code: 401. Response: {}").
Proof. reflexivity. Qed.

(** ** Authenticated requests *)

Lemma with_json_requests (m : M state (pyval * response)) s :
  requests_of (with_json m) s = requests_of m s.
Proof.
  unfold requests_of, with_json, bind, ret.
  destruct (m s) as [[p|e] s']; reflexivity.
Qed.

(** Every call that passes validation sends one request, with the client's
    token as bearer; a call that does not sends none. *)
Lemma run_requests server (c : call) (s : state) :
  (List.length (requests_of (run server c) s) = if validates c then 1 else 0)%nat
  /\ Forall (authenticated (Py.str (access_token (self s))))
       (requests_of (run server c) s).
Proof.
  destruct c as [| key id | key id | id name value value_type scope descr user pass
                 | id name content priority kwargs | id name descr kwargs];
    cbn [run validates].
  1, 2, 5, 6:
    rewrite with_json_requests; run_method;
    on_response; rewrite skipn_length_app;
    (split; [reflexivity | repeat constructor]).
  - run_method. on_response; rewrite skipn_length_app;
      (split; [reflexivity | repeat constructor]).
  - rewrite with_json_requests.
    destruct (existsb (String.eqb value_type) value_types) eqn:E.
    + rewrite create_asset_posts by exact E.
      split; [reflexivity | repeat constructor].
    + assert (Hbad : ~ In value_type value_types).
      { intros Hin. apply valid_type_spec in Hin. congruence. }
      unfold requests_of, create_asset. rewrite E. simpl. unfold raise. simpl.
      rewrite skipn_length_nil. split; [reflexivity | constructor].
Qed.

(** C6. When the token exchange answers 200 with the body
    [{access_token: abc}], construction yields a client, and every request a
    later method call sends carries [Authorization: Bearer abc] and
    [accept: application/json]. *)
Theorem bearer_token_on_every_request
    server client_id refresh_token base tokenurl (w : world) :
  let response := server (sent w) (token_request client_id refresh_token tokenurl) in
  status_code response = 200 ->
  decoded response = Some (PDict [("access_token", PStr "abc")]) ->
  exists client,
    fst (init server client_id refresh_token base tokenurl w) = inl client
    /\ forall (c : call) (s : state),
         self s = client ->
         (List.length (requests_of (run server c) s)
          = if validates c then 1 else 0)%nat
         /\ Forall
              (fun r =>
                 Dict.get (headers r) "Authorization" = Some "Bearer abc"
                 /\ Dict.get (headers r) "accept" = Some "application/json")
              (requests_of (run server c) s).
Proof.
  cbv zeta. unfold token_request. intros Hstatus Hjson.
  exists {| base_url := base; access_token := PStr "abc" |}. split.
  - run_method. rewrite Hjson, Hstatus. reflexivity.
  - intros c s Hself.
    destruct (run_requests server c s) as [Hlen Hauth].
    rewrite Hself in Hauth. split; [exact Hlen | exact Hauth].
Qed.

Lemma bearer_token_on_every_request_witness :
  exists client,
    fst (init (always token_abc) "client" "refresh" "https://orch.example"
           default_tokenurl fresh) = inl client
    /\ forall (c : call) (s : state),
         self s = client ->
         (List.length (requests_of (run (always token_abc) c) s)
          = if validates c then 1 else 0)%nat
         /\ Forall
              (fun r =>
                 Dict.get (headers r) "Authorization" = Some "Bearer abc"
                 /\ Dict.get (headers r) "accept" = Some "application/json")
              (requests_of (run (always token_abc) c) s).
Proof.
  apply (bearer_token_on_every_request (always token_abc) "client" "refresh"
           "https://orch.example" default_tokenurl fresh); reflexivity.
Defined.

Example get_assets_by_key_request :
  requests_of (get_assets_by_key (always token_abc) 12 7) sample_state
  = [ mkRequest GET "https://orch.example/odata/Assets(12)"
        [ ("Authorization", "Bearer abc");
          ("X-UIPATH-OrganizationUnitId", "7");
          ("accept", "application/json") ] None ].
Proof. reflexivity. Qed.

(** ** Outcomes of the reading calls *)

(** [get_all_assets] sends one GET to the cross-folder endpoint.  It returns
    the decoded body with the response when the status is 200 and the body is
    JSON, raises the decoding error when the status is 200 and the body is not
    JSON, and on any other status raises the error with the status code and
    the response text. *)
Theorem get_all_assets_outcome server s :
  let request :=
    mkRequest GET
      (base_url (self s)
       ++ "/odata/Assets/UiPath.Server.Configuration.OData.GetAssetsAcrossFolders")
      [ ("Authorization", "Bearer " ++ Py.str (access_token (self s)));
        ("Content-Type", "application/json;odata.metadata=minimal;odata.streaming=True");
        ("accept", "application/json") ] None in
  let response := server (sent (io s)) request in
  requests_of (get_all_assets server) s = [request]
  /\ (forall j, status_code response = 200 -> decoded response = Some j ->
      fst (get_all_assets server s) = inl (j, response))
  /\ (status_code response = 200 -> decoded response = None ->
      fst (get_all_assets server s) = inr JSONDecodeError)
  /\ (status_code response <> 200 ->
      fst (get_all_assets server s)
      = inr (ValueError
               ("Failed to retrieve assets. Status code: "
                ++ Py.str_of_int (status_code response)
                ++ ". Response: " ++ text response))).
Proof.
  cbv zeta. run_method. unfold failure, CONTENT_TYPE_JSON.
  on_response; rewrite skipn_length_app;
    repeat split; intros; congruence.
Qed.

Lemma get_all_assets_outcome_witness :
  fst (get_all_assets (always ok_empty) sample_state) = inl (PDict [], ok_empty).
Proof.
  apply (proj1 (proj2 (get_all_assets_outcome (always ok_empty) sample_state)));
    reflexivity.
Defined.

(** [get_assets_by_key] sends one GET to [/odata/Assets(key)] with the
    organization unit header, and treats the response as [get_all_assets]
    does: 200 with a JSON body returns, 200 without raises the decoding error,
    any other status raises the error with the status code and the text. *)
Theorem get_assets_by_key_outcome server s key id :
  let request :=
    mkRequest GET (base_url (self s) ++ "/odata/Assets(" ++ Py.str_of_int key ++ ")")
      [ ("Authorization", "Bearer " ++ Py.str (access_token (self s)));
        ("X-UIPATH-OrganizationUnitId", Py.str_of_int id);
        ("accept", "application/json") ] None in
  let response := server (sent (io s)) request in
  requests_of (get_assets_by_key server key id) s = [request]
  /\ (forall j, status_code response = 200 -> decoded response = Some j ->
      fst (get_assets_by_key server key id s) = inl (j, response))
  /\ (status_code response = 200 -> decoded response = None ->
      fst (get_assets_by_key server key id s) = inr JSONDecodeError)
  /\ (status_code response <> 200 ->
      fst (get_assets_by_key server key id s)
      = inr (ValueError
               ("Failed to retrieve assets. Status code: "
                ++ Py.str_of_int (status_code response)
                ++ ". Response: " ++ text response))).
Proof.
  cbv zeta. run_method. unfold failure, unit_headers, CONTENT_TYPE_JSON.
  on_response; rewrite skipn_length_app;
    repeat split; intros; congruence.
Qed.

Lemma get_assets_by_key_outcome_witness :
  fst (get_assets_by_key (always not_found) 12 7 sample_state)
  = inr (ValueError "Failed to retrieve assets. Status code: 404. Response: not found").
Proof.
  apply (proj2 (proj2 (proj2
           (get_assets_by_key_outcome (always not_found) sample_state 12 7)))).
  simpl. discriminate.
Defined.

(** ** Outcomes of the creating calls *)

(** [create_asset] with a valid tag returns only on status 201 with a JSON
    body; every other status, 200 included, raises the error with the status
    code and the response text, and 201 with a body that is not JSON raises
    the decoding error. *)
Theorem create_asset_outcome
    server s id name value value_type scope descr user pass :
  In value_type value_types ->
  let request :=
    mkRequest POST (base_url (self s) ++ "/odata/Assets")
      [ ("Authorization", "Bearer " ++ Py.str (access_token (self s)));
        ("X-UIPATH-OrganizationUnitId", Py.str_of_int id);
        ("accept", "application/json") ]
      (Some (PDict (create_asset_body name value value_type scope descr user pass))) in
  let response := server (sent (io s)) request in
  let outcome :=
    fst (create_asset server id name value value_type scope descr user pass s) in
  (forall j, status_code response = 201 -> decoded response = Some j ->
      outcome = inl (j, response))
  /\ (status_code response = 201 -> decoded response = None ->
      outcome = inr JSONDecodeError)
  /\ (status_code response <> 201 ->
      outcome
      = inr (ValueError
               ("Failed to create asset. Status code: "
                ++ Py.str_of_int (status_code response)
                ++ ". Response: " ++ text response))).
Proof.
  intros Hin. apply valid_type_spec in Hin. cbv zeta.
  unfold create_asset. rewrite Hin. run_method.
  unfold failure, unit_headers, CONTENT_TYPE_JSON.
  on_response; repeat split; intros; congruence.
Qed.

Lemma create_asset_outcome_witness :
  fst (create_asset (always ok_empty) 7 "retries" (PInt 5) "Integer" "Global"
         "using api" PNone PNone sample_state)
  = inr (ValueError "Failed to create asset. Status code: 200. Response: {}").
Proof.
  apply (proj2 (proj2
           (create_asset_outcome (always ok_empty) sample_state 7 "retries" (PInt 5)
              "Integer" "Global" "using api" PNone PNone
              (or_introl eq_refl)))).
  simpl. discriminate.
Defined.

(** [add_queue_item] sends one POST to the AddQueueItem endpoint and returns
    only on status 201 with a JSON body; any other status raises the error
    with the status code and the response text. *)
Theorem add_queue_item_outcome server s id queue_name content priority kwargs :
  let request :=
    mkRequest POST (base_url (self s) ++ "/odata/Queues/UiPathODataSvc.AddQueueItem")
      [ ("Authorization", "Bearer " ++ Py.str (access_token (self s)));
        ("X-UIPATH-OrganizationUnitId", Py.str_of_int id);
        ("accept", "application/json") ]
      (Some (PDict (add_queue_item_body queue_name content priority kwargs))) in
  let response := server (sent (io s)) request in
  let outcome :=
    fst (add_queue_item server id queue_name content priority kwargs s) in
  requests_of (add_queue_item server id queue_name content priority kwargs) s
  = [request]
  /\ (forall j, status_code response = 201 -> decoded response = Some j ->
      outcome = inl (j, response))
  /\ (status_code response = 201 -> decoded response = None ->
      outcome = inr JSONDecodeError)
  /\ (status_code response <> 201 ->
      outcome
      = inr (ValueError
               ("Failed to create queue item. Status code: "
                ++ Py.str_of_int (status_code response)
                ++ ". Response: " ++ text response))).
Proof.
  cbv zeta. run_method. unfold failure, unit_headers, CONTENT_TYPE_JSON.
  on_response; rewrite skipn_length_app;
    repeat split; intros; congruence.
Qed.

Lemma add_queue_item_outcome_witness :
  fst (add_queue_item (always created) 7 "invoices" [("n", PInt 1)] "Normal" []
         sample_state)
  = inl (PDict [], created).
Proof.
  apply (proj1 (proj2
           (add_queue_item_outcome (always created) sample_state 7 "invoices"
              [("n", PInt 1)] "Normal" [])));
    reflexivity.
Defined.

(** [create_queue] sends one POST to [/odata/QueueDefinitions] and returns
    only on status 201 with a JSON body; any other status raises the error
    with the status code and the response text. *)
Theorem create_queue_outcome server s id name descr kwargs :
  let request :=
    mkRequest POST (base_url (self s) ++ "/odata/QueueDefinitions")
      [ ("Authorization", "Bearer " ++ Py.str (access_token (self s)));
        ("X-UIPATH-OrganizationUnitId", Py.str_of_int id);
        ("accept", "application/json") ]
      (Some (PDict (create_queue_body name descr kwargs))) in
  let response := server (sent (io s)) request in
  let outcome := fst (create_queue server id name descr kwargs s) in
  requests_of (create_queue server id name descr kwargs) s = [request]
  /\ (forall j, status_code response = 201 -> decoded response = Some j ->
      outcome = inl (j, response))
  /\ (status_code response = 201 -> decoded response = None ->
      outcome = inr JSONDecodeError)
  /\ (status_code response <> 201 ->
      outcome
      = inr (ValueError
               ("Failed to create queue. Status code: "
                ++ Py.str_of_int (status_code response)
                ++ ". Response: " ++ text response))).
Proof.
  cbv zeta. run_method. unfold failure, unit_headers, CONTENT_TYPE_JSON.
  on_response; rewrite skipn_length_app;
    repeat split; intros; congruence.
Qed.

Lemma create_queue_outcome_witness :
  fst (create_queue (always not_found) 7 "invoices" "created using api" []
         sample_state)
  = inr (ValueError "Failed to create queue. Status code: 404. Response: not found").
Proof.
  apply (proj2 (proj2 (proj2
           (create_queue_outcome (always not_found) sample_state 7 "invoices"
              "created using api" [])))).
  simpl. discriminate.
Defined.

(** ** More on construction *)

(** Construction yields a client exactly when the token response has status
    200 and its body decodes to an object with the key [access_token]; the
    client then holds the given base URL and the value under that key, as it
    is. *)
Theorem init_yields_client_iff
    server client_id refresh_token base tokenurl w (client : OrchApi) :
  let response := server (sent w) (token_request client_id refresh_token tokenurl) in
  fst (init server client_id refresh_token base tokenurl w) = inl client
  <-> status_code response = 200
      /\ base_url client = base
      /\ exists d, decoded response = Some (PDict d)
                   /\ Dict.get d "access_token" = Some (access_token client).
Proof.
  cbv zeta. unfold token_request. run_method. split.
  - on_response; try discriminate.
    match goal with
    | |- context [match ?v with PDict _ => _ | _ => _ end] =>
        destruct v as [| | | | |d]; simpl; try discriminate
    end.
    destruct (Dict.get d "access_token") as [t|] eqn:Ht; simpl; [|discriminate].
    intros H. injection H as <-. simpl. eauto.
  - intros [Hstatus [Hbase [d [Hjson Hget]]]].
    rewrite Hjson. simpl. rewrite Hstatus, Hget. simpl.
    destruct client as [b t]. simpl in *. now subst.
Qed.

Lemma init_yields_client_iff_witness :
  fst (init (always token_abc) "client" "refresh" "https://orch.example"
         default_tokenurl fresh)
  = inl sample_client.
Proof.
  apply (proj2 (init_yields_client_iff (always token_abc) "client" "refresh"
                  "https://orch.example" default_tokenurl fresh sample_client)).
  simpl. split; [reflexivity|]. split; [reflexivity|].
  exists [("access_token", PStr "abc")]. split; reflexivity.
Defined.

(** On status 200, a token body that is an object without the key
    [access_token] fails construction with [KeyError], and a body that decodes
    to anything but an object fails it with [TypeError]. *)
Theorem init_token_lookup_errors
    server client_id refresh_token base tokenurl w :
  let response := server (sent w) (token_request client_id refresh_token tokenurl) in
  let outcome := fst (init server client_id refresh_token base tokenurl w) in
  status_code response = 200 ->
  (forall d, decoded response = Some (PDict d) ->
             Dict.get d "access_token" = None ->
             outcome = inr (KeyError "access_token"))
  /\ (forall v, decoded response = Some v ->
                (forall d, v <> PDict d) ->
                outcome = inr TypeError).
Proof.
  cbv zeta. unfold token_request. intros Hstatus. run_method. rewrite Hstatus.
  split.
  - intros d Hjson Hget. rewrite Hjson. simpl. now rewrite Hget.
  - intros v Hjson Hnot. rewrite Hjson. simpl.
    destruct v as [| | | | |d]; try reflexivity.
    now destruct (Hnot d).
Qed.

Lemma init_token_lookup_errors_witness :
  fst (init (always ok_empty) "client" "refresh" "https://orch.example"
         default_tokenurl fresh) = inr (KeyError "access_token")
  /\ fst (init (always ok_list) "client" "refresh" "https://orch.example"
            default_tokenurl fresh) = inr TypeError.
Proof.
  split.
  - apply (proj1 (init_token_lookup_errors (always ok_empty) "client" "refresh"
                    "https://orch.example" default_tokenurl fresh eq_refl) []);
      reflexivity.
  - apply (proj2 (init_token_lookup_errors (always ok_list) "client" "refresh"
                    "https://orch.example" default_tokenurl fresh eq_refl) (PList []));
      [reflexivity | discriminate].
Defined.

(** Whatever the token endpoint answers, construction sends exactly one
    request and prints nothing: a POST to the token URL whose body holds the
    grant type, the client id and the refresh token, under the headers
    [Authorization: Bearer] and [Content-Type: application/json]. *)
Theorem init_sends_one_token_request
    server client_id refresh_token base tokenurl w :
  snd (init server client_id refresh_token base tokenurl w)
  = {| sent :=
         sent w
         ++ [ mkRequest POST tokenurl
                [ ("Authorization", "Bearer"); ("Content-Type", "application/json") ]
                (Some (PDict [ ("grant_type", PStr "refresh_token");
                               ("client_id", PStr client_id);
                               ("refresh_token", PStr refresh_token) ])) ];
       stdout := stdout w |}.
Proof.
  run_method. unfold CONTENT_TYPE_JSON.
  on_response; try reflexivity;
    match goal with
    | |- context [match ?v with PDict _ => _ | _ => _ end] =>
        destruct v as [| | | | |d]; simpl; try reflexivity;
        destruct (Dict.get d "access_token"); reflexivity
    end.
Qed.

(** ** Printing *)

(** [delete_asset] prints its one line when the status is 204 and prints
    nothing otherwise. *)
Theorem delete_asset_prints_on_204 server s key id :
  let response := server (sent (io s)) (delete_request (self s) key id) in
  stdout (io (snd (delete_asset server key id s)))
  = if status_code response =? 204
    then (stdout (io s) ++ ["Asset has been deleted."])%list
    else stdout (io s).
Proof.
  cbv zeta. unfold delete_request. run_method. on_response; reflexivity.
Qed.

Section Quiet.

Context {A B : Type}.

Lemma quiet_ret (a : A) : quiet (ret a).
Proof. intros s. reflexivity. Qed.

Lemma quiet_raise (e : exn) : quiet (@raise state A e).
Proof. intros s. reflexivity. Qed.

Lemma quiet_gets (f : state -> A) : quiet (gets f).
Proof. intros s. reflexivity. Qed.

Lemma quiet_send server (r : request) : quiet (in_world (send server r)).
Proof. intros s. reflexivity. Qed.

Lemma quiet_json (r : response) : quiet (@json state r).
Proof. intros s. unfold json. destruct (decoded r); reflexivity. Qed.

Lemma quiet_bind (m : M state A) (k : A -> M state B) :
  quiet m -> (forall a, quiet (k a)) -> quiet (bind m k).
Proof.
  intros Hm Hk s. unfold bind. specialize (Hm s).
  destruct (m s) as [[a|e] s']; simpl in *.
  - now rewrite Hk.
  - assumption.
Qed.

End Quiet.

Create HintDb quiet.

#[local] Hint Resolve quiet_ret quiet_raise quiet_gets quiet_send quiet_json : quiet.

Ltac quiet_step :=
  match goal with
  | |- quiet (bind _ _) => apply quiet_bind; [| intros ?]
  | |- quiet (if ?b then _ else _) => destruct b
  | |- quiet _ => solve [auto with quiet]
  end.

(** No method other than [delete_asset] ever prints, whether it returns or
    raises. *)
Theorem only_delete_asset_prints server (c : call) (s : state) :
  (forall key id, c <> DeleteAsset key id) ->
  stdout (io (snd (run server c s))) = stdout (io s).
Proof.
  intros Hc.
  assert (H : quiet (run server c)).
  { destruct c; try (now destruct (Hc key id));
      unfold run, with_json, get_all_assets, get_assets_by_key,
        create_asset, add_queue_item, create_queue;
      repeat quiet_step. }
  apply H.
Qed.

Lemma only_delete_asset_prints_witness :
  stdout (io (snd (run (always ok_empty) GetAllAssets sample_state)))
  = stdout (io sample_state).
Proof.
  apply (only_delete_asset_prints (always ok_empty) GetAllAssets sample_state).
  intros key id. discriminate.
Defined.

(** ** The shape of the requests *)

(** Runs a call down to the list of the requests it sent, then checks each. *)
Ltac each_request server c s :=
  destruct c as [| key id | key id | id name value value_type scope descr user pass
                 | id name content priority kwargs | id name descr kwargs];
  cbn [run validates organization_unit];
  [ rewrite with_json_requests; run_method; on_response; rewrite skipn_length_app
  | rewrite with_json_requests; run_method; on_response; rewrite skipn_length_app
  | run_method; on_response; rewrite skipn_length_app
  | rewrite with_json_requests;
    destruct (existsb (String.eqb value_type) value_types) eqn:?E;
    [ rewrite create_asset_posts by assumption
    | unfold requests_of, create_asset;
      match goal with H : existsb _ _ = false |- _ => rewrite H end;
      simpl; unfold raise; simpl; rewrite skipn_length_nil ]
  | rewrite with_json_requests; run_method; on_response; rewrite skipn_length_app
  | rewrite with_json_requests; run_method; on_response; rewrite skipn_length_app ].

(** Every call made for an organization unit sends that unit's id, in decimal,
    in the header [X-UIPATH-OrganizationUnitId]; [get_all_assets], which names
    no unit, sends no such header. *)
Theorem organization_unit_header server (c : call) (s : state) :
  (List.length (requests_of (run server c) s) = if validates c then 1 else 0)%nat
  /\ Forall
       (fun r =>
          Dict.get (headers r) "X-UIPATH-OrganizationUnitId"
          = option_map Py.str_of_int (organization_unit c))
       (requests_of (run server c) s).
Proof.
  each_request server c s; (split; [reflexivity | repeat constructor]).
Qed.

(** Every request goes to a URL that is the client's base URL followed by a
    path, taken as it is; the reading and deleting calls send no body, and
    every POST carries a JSON object. *)
Theorem requests_extend_base_url server (c : call) (s : state) :
  Forall
    (fun r =>
       (exists path, url r = base_url (self s) ++ path)
       /\ match verb r with
          | POST => exists d, json_body r = Some (PDict d)
          | GET | DELETE => json_body r = None
          end)
    (requests_of (run server c) s).
Proof.
  each_request server c s; repeat constructor; simpl; eauto.
Qed.

Example base_url_trailing_slash :
  map url
    (requests_of (get_assets_by_key (always ok_empty) 12 7)
       {| self := {| base_url := "https://orch.example/"; access_token := PStr "abc" |};
          io := fresh |})
  = [ "https://orch.example//odata/Assets(12)" ].
Proof. reflexivity. Qed.

(** ** The fields of the queue bodies *)

Module DictKeys.

Lemma keys_set_present {V} (d : list (string * V)) k v :
  In k (Dict.keys d) -> Dict.keys (Dict.set d k v) = Dict.keys d.
Proof.
  induction d as [|[k0 v0] d IH]; simpl; [tauto|].
  intros [->|Hin].
  - now rewrite String.eqb_refl.
  - destruct (String.eqb_spec k0 k); simpl; [reflexivity | now rewrite IH].
Qed.

Lemma keys_set_absent {V} (d : list (string * V)) k v :
  ~ In k (Dict.keys d) -> Dict.keys (Dict.set d k v) = (Dict.keys d ++ [k])%list.
Proof.
  induction d as [|[k0 v0] d IH]; simpl; [reflexivity|].
  intros Hnot. destruct (String.eqb_spec k0 k); [tauto|].
  simpl. rewrite IH by tauto. reflexivity.
Qed.

Lemma in_keys_dec {V} (d : list (string * V)) k :
  {In k (Dict.keys d)} + {~ In k (Dict.keys d)}.
Proof. apply in_dec, string_dec. Qed.

Lemma wf_set {V} (d : list (string * V)) k v :
  Dict.wf d -> Dict.wf (Dict.set d k v).
Proof.
  unfold Dict.wf. intros Hwf. destruct (in_keys_dec d k) as [Hin|Hnot].
  - now rewrite keys_set_present.
  - rewrite keys_set_absent by assumption.
    apply NoDup_app; [assumption | repeat constructor; simpl; tauto |].
    intros x Hx [<-|[]]. contradiction.
Qed.

Lemma wf_update {V} (other d : list (string * V)) :
  Dict.wf d -> Dict.wf (Dict.update d other).
Proof.
  revert d. induction other as [|[k v] other IH]; intros d Hwf; [assumption|].
  apply (IH (Dict.set d k v)). now apply wf_set.
Qed.

(** [update] keeps the keys of the base in place and appends the new keys of
    [other]. *)
Lemma keys_update {V} (other d : list (string * V)) :
  exists extra,
    Dict.keys (Dict.update d other) = (Dict.keys d ++ extra)%list
    /\ forall k, In k extra <-> In k (Dict.keys other) /\ ~ In k (Dict.keys d).
Proof.
  revert d. induction other as [|[k0 v0] other IH]; intros d.
  - exists []. simpl. rewrite app_nil_r. split; [reflexivity | tauto].
  - destruct (IH (Dict.set d k0 v0)) as [extra [Hkeys Hextra]].
    change (Dict.update d ((k0, v0) :: other))
      with (Dict.update (Dict.set d k0 v0) other).
    destruct (in_keys_dec d k0) as [Hin|Hnot].
    + rewrite keys_set_present in Hkeys, Hextra by assumption.
      exists extra. split; [assumption|].
      intros k. rewrite Hextra. simpl. split; [tauto|].
      intros [[<-|Hk] Hd]; tauto.
    + rewrite keys_set_absent in Hkeys, Hextra by assumption.
      exists (k0 :: extra). split.
      * rewrite Hkeys, <- app_assoc. reflexivity.
      * intros k. simpl. rewrite Hextra, in_app_iff. simpl.
        destruct (string_dec k0 k) as [<-|Hne]; tauto.
Qed.

End DictKeys.

(** The body [create_queue] posts starts with [Name] and [Description], in
    that order, followed by the override keys that are neither of the two; no
    key occurs twice. *)
Theorem create_queue_body_fields server s id name descr (kwargs : dict) :
  exists body extra,
    posted_body (create_queue server id name descr kwargs) s = Some body
    /\ Dict.keys body = "Name" :: "Description" :: extra
    /\ (forall k, In k extra
                  <-> In k (Dict.keys kwargs) /\ k <> "Name" /\ k <> "Description")
    /\ Dict.wf body.
Proof.
  destruct (DictKeys.keys_update kwargs
              [("Name", PStr name); ("Description", PStr descr)])
    as [extra [Hkeys Hextra]].
  exists (create_queue_body name descr kwargs), extra.
  rewrite create_queue_posts. split; [reflexivity|]. split; [exact Hkeys|]. split.
  - intros k. rewrite Hextra. simpl. intuition congruence.
  - apply DictKeys.wf_update. repeat constructor; simpl; intuition discriminate.
Qed.

(** A base field of the queue definition that the caller does not override
    keeps the value [create_queue] was given, and a key that is neither a base
    field nor an override is absent from the body. *)
Theorem create_queue_keeps_base_fields server s id name descr (kwargs : dict) :
  exists body,
    posted_body (create_queue server id name descr kwargs) s = Some body
    /\ (~ In "Name" (Dict.keys kwargs) -> Dict.get body "Name" = Some (PStr name))
    /\ (~ In "Description" (Dict.keys kwargs) ->
        Dict.get body "Description" = Some (PStr descr))
    /\ (forall k, k <> "Name" -> k <> "Description" ->
                  ~ In k (Dict.keys kwargs) -> Dict.get body k = None).
Proof.
  eexists. rewrite create_queue_posts. split; [reflexivity|].
  unfold create_queue_body. repeat split.
  - intros H. now rewrite DictFacts.get_update_absent.
  - intros H. now rewrite DictFacts.get_update_absent.
  - intros k Hn Hd H. rewrite DictFacts.get_update_absent by assumption.
    cbn [Dict.get].
    assert (En : String.eqb "Name" k = false) by (apply String.eqb_neq; congruence).
    assert (Ed : String.eqb "Description" k = false)
      by (apply String.eqb_neq; congruence).
    now rewrite En, Ed.
Qed.

Lemma create_queue_keeps_base_fields_witness :
  exists body,
    posted_body
      (create_queue (always created) 7 "invoices" "created using api"
         [("MaxNumberOfRetries", PInt 3)]) sample_state = Some body
    /\ Dict.get body "Name" = Some (PStr "invoices")
    /\ Dict.get body "Description" = Some (PStr "created using api").
Proof.
  destruct (create_queue_keeps_base_fields (always created) sample_state 7
              "invoices" "created using api" [("MaxNumberOfRetries", PInt 3)])
    as [body [Hbody [Hname [Hdescr _]]]].
  exists body. split; [exact Hbody|]. split.
  - apply Hname. simpl. intros [H|[]]. discriminate H.
  - apply Hdescr. simpl. intros [H|[]]. discriminate H.
Defined.

(** The body [add_queue_item] posts starts with [itemData], followed by the
    override keys other than [itemData]; no key occurs twice. *)
Theorem add_queue_item_body_fields
    server s id queue_name content priority (kwargs : dict) :
  exists body extra,
    posted_body (add_queue_item server id queue_name content priority kwargs) s
    = Some body
    /\ Dict.keys body = "itemData" :: extra
    /\ (forall k, In k extra <-> In k (Dict.keys kwargs) /\ k <> "itemData")
    /\ Dict.wf body.
Proof.
  destruct (DictKeys.keys_update kwargs
              [("itemData",
                PDict [ ("Name", PStr queue_name); ("Priority", PStr priority);
                        ("SpecificContent", PDict content) ])])
    as [extra [Hkeys Hextra]].
  exists (add_queue_item_body queue_name content priority kwargs), extra.
  rewrite add_queue_item_posts. split; [reflexivity|]. split; [exact Hkeys|]. split.
  - intros k. rewrite Hextra. simpl. intuition congruence.
  - apply DictKeys.wf_update. repeat constructor; simpl; tauto.
Qed.

(** ** Construction followed by a call *)

Lemma init_fails_with_status_witness :
  fst (init (always {| status_code := 401; text := "{}"; decoded := Some (PDict []) |})
         "client" "refresh" "https://orch.example" default_tokenurl fresh)
  = inr (ValueError "Failed to retrieve access token. Status code: 401. Response: {}").
Proof.
  apply (init_fails_with_status
           (always {| status_code := 401; text := "{}"; decoded := Some (PDict []) |})
           "client" "refresh" "https://orch.example" default_tokenurl fresh (PDict [])).
  - reflexivity.
  - simpl. discriminate.
Defined.

(** The log after a call is the log before it followed by what the call
    sent. *)
Lemma run_appends server (c : call) (s : state) :
  sent (io (snd (run server c s)))
  = (sent (io s) ++ requests_of (run server c) s)%list.
Proof.
  destruct c as [| key id | key id | id name value value_type scope descr user pass
                 | id name content priority kwargs | id name descr kwargs];
    unfold requests_of, run, with_json, create_asset;
    try destruct (existsb (String.eqb value_type) value_types);
    run_method; on_response;
    rewrite ?skipn_length_app, ?skipn_length_nil, ?app_nil_r; reflexivity.
Qed.

(** Constructing a client and then calling a method on it sends the token
    request first and then the call's requests, each with the bearer header
    built from the value the token response held under [access_token],
    whatever JSON value that is. *)
Theorem construct_then_call
    server client_id refresh_token base tokenurl (w : world)
    (d : dict) (token : pyval) (c : call) :
  let response := server (sent w) (token_request client_id refresh_token tokenurl) in
  status_code response = 200 ->
  decoded response = Some (PDict d) ->
  Dict.get d "access_token" = Some token ->
  exists client w1 reqs,
    init server client_id refresh_token base tokenurl w = (inl client, w1)
    /\ sent (io (snd (run server c {| self := client; io := w1 |})))
       = (sent w ++ token_request client_id refresh_token tokenurl :: reqs)%list
    /\ Forall
         (fun r =>
            Dict.get (headers r) "Authorization" = Some ("Bearer " ++ Py.str token)
            /\ Dict.get (headers r) "accept" = Some "application/json")
         reqs.
Proof.
  cbv zeta. intros Hstatus Hjson Hget.
  pose (client := {| base_url := base; access_token := token |}).
  pose (w1 := {| sent := sent w ++ [token_request client_id refresh_token tokenurl];
                 stdout := stdout w |}).
  exists client, w1, (requests_of (run server c) {| self := client; io := w1 |}).
  split; [|split].
  - unfold token_request in *. run_method. rewrite Hjson. simpl.
    rewrite Hstatus, Hget. reflexivity.
  - rewrite run_appends. simpl. rewrite <- app_assoc. reflexivity.
  - exact (proj2 (run_requests server c {| self := client; io := w1 |})).
Qed.

Lemma construct_then_call_witness :
  exists client w1 reqs,
    init (always ok_null_token) "client" "refresh" "https://orch.example"
      default_tokenurl fresh = (inl client, w1)
    /\ sent (io (snd (run (always ok_null_token) (DeleteAsset 12 7)
                        {| self := client; io := w1 |})))
       = (sent fresh ++ token_request "client" "refresh" default_tokenurl :: reqs)%list
    /\ Forall
         (fun r =>
            Dict.get (headers r) "Authorization" = Some ("Bearer " ++ Py.str PNone)
            /\ Dict.get (headers r) "accept" = Some "application/json")
         reqs.
Proof.
  apply (construct_then_call (always ok_null_token) "client" "refresh"
           "https://orch.example" default_tokenurl fresh
           [("access_token", PNone)] PNone (DeleteAsset 12 7)); reflexivity.
Defined.

Example null_token_header :
  map (fun r => Dict.get (headers r) "Authorization")
    (requests_of (get_all_assets (always ok_null_token))
       {| self := {| base_url := "https://orch.example"; access_token := PNone |};
          io := fresh |})
  = [ Some "Bearer None" ].
Proof. reflexivity. Qed.
